(** * Smart-finance backend: transaction log, fraud rule, simulator, insights

    A shallow embedding of the single-module FastAPI service
    (handlers [submit_transaction], [get_transactions], [get_transaction],
    [simulate_transactions], [user_insights], the rule [detect_fraud] and the
    notifier [send_email_alert]) together with the properties its
    specification states about them.

    Modelling conventions.
    - A Python [float] is a binary64 number ([PrimFloat.float]): sums are
      rounded additions made in the order of the code, and comparisons are
      those of IEEE 754 (false on NaN).
    - A [uuid.UUID] is represented by its canonical text, so [str(u)] is the
      projection [uuid_text] and [UUID(s)] the constructor.
    - A [datetime] is its wall-clock reading with, when it is aware, its
      UTC offset.  A [DateTime] column holds the wall-clock reading only.
    - A REAL column holds a number or NULL; a NaN is stored as NULL, and an
      attribute loaded from NULL is [None].
    - A Python [dict] is an association list in insertion order with unique
      keys; assignment to an existing key keeps the key's position.
    - The table [transactions] is the list of committed rows in insertion
      order, with [id] as primary key.
    - Handlers run in a state-and-exception monad over the [World]. *)

From Stdlib Require Import List String Ascii ZArith Bool Lia.
From Stdlib Require Import DecimalString.
From Stdlib Require Import Floats.
Import ListNotations.

Local Open Scope string_scope.
Local Open Scope Z_scope.
Local Open Scope list_scope.

(** ** Values *)

Record UUID := mkUUID { uuid_text : string }.

(** [str(u)] for a UUID. *)
Definition str_uuid (u : UUID) : string := uuid_text u.

(** [str(n)] for a Python [int]. *)
Definition str_int (n : Z) : string := NilZero.string_of_int (Z.to_int n).

(** A [datetime]: the wall-clock reading in microseconds and, for an aware
    value, the UTC offset in minutes. *)
Record datetime := mkDatetime { wall : Z; utcoffset : option Z }.

(** The value read back from a [DateTime] column: the offset is not kept. *)
Definition naive (d : datetime) : datetime := mkDatetime (wall d) None.

(** Python [x > y] on floats. *)
Definition gt_float (x y : float) : bool := (y <? x)%float.

(** Python [s in l] / [s not in l] for a list of [str]. *)
Definition str_in (s : string) (l : list string) : bool :=
  existsb (String.eqb s) l.

(** ** Pydantic schema [Transaction] *)

Record Transaction := mkTransaction {
  id : UUID;
  user_id : string;
  amount : float;
  currency : string;
  timestamp : datetime;
  merchant : string;
  location : string;
  category : string;
  is_fraud : bool
}.

(** The assignment [tx.is_fraud = b]. *)
Definition set_is_fraud (tx : Transaction) (b : bool) : Transaction :=
  mkTransaction (id tx) (user_id tx) (amount tx) (currency tx) (timestamp tx)
                (merchant tx) (location tx) (category tx) b.

(** ** Database model [TransactionDB] *)

(** The value held by the [id] attribute of a [TransactionDB] object: the
    column is declared [String]; [submit_transaction] assigns [str(tx.id)],
    whereas the keyword expansion of [tx.dict()] assigns the [UUID] object
    itself. *)
Inductive IdValue :=
| IdStr (s : string)
| IdUuid (u : UUID).

Module DB.
Record TransactionDB := mk {
  id : IdValue;
  user_id : string;
  amount : option float;        (* [None] when the column is NULL *)
  currency : string;
  timestamp : datetime;
  merchant : string;
  location : string;
  category : string;
  is_fraud : bool
}.
End DB.
Definition TransactionDB : Type := DB.TransactionDB.

(** [TransactionDB] built from the keyword expansion of [tx.dict()]: every
    attribute is taken as it is in the schema object, the [id] being a
    [UUID]. *)
Definition TransactionDB_of_dict (tx : Transaction) : TransactionDB :=
  DB.mk (IdUuid (id tx)) (user_id tx) (Some (amount tx)) (currency tx)
        (timestamp tx) (merchant tx) (location tx) (category tx)
        (is_fraud tx).

(** Pydantic's coercion of an [id] attribute to [UUID]. *)
Definition UUID_of_value (v : IdValue) : UUID :=
  match v with
  | IdStr s => mkUUID s
  | IdUuid u => u
  end.

(** ** Configuration *)

Record Config := mkConfig {
  email_alerts_enabled : bool;
  alert_email : string
}.

Definition EMAIL_ALERTS_ENABLED : bool := false.
Definition ALERT_EMAIL : string := "alert@example.com".
Definition module_config : Config := mkConfig EMAIL_ALERTS_ENABLED ALERT_EMAIL.

(** ** Fraud detection *)

Definition allowed_locations : list string :=
  ["Cape Town"; "Johannesburg"; "Durban"].

Definition detect_fraud (transaction : Transaction) : bool :=
  if gt_float (amount transaction) 10000 then true
  else if negb (str_in (location transaction) allowed_locations) then true
  else false.

(** ** World, exceptions and the handler monad *)

Inductive Exn :=
| IntegrityError                 (* INSERT with a primary key already present *)
| InterfaceError                 (* the driver cannot bind a parameter value *)
| HTTPException (status_code : Z) (detail : string)
| ValueError (msg : string)
| SMTPError (msg : string)       (* any failure of the SMTP exchange *)
| ValidationError                (* a schema field that does not validate *)
| TypeError.                     (* an operand of the wrong type *)

Inductive result (A : Type) :=
| Ok (a : A)
| Raise (e : Exn).
Arguments Ok {A} a.
Arguments Raise {A} e.

(** [Transaction] built from the keyword expansion of [t.__dict__], for a
    loaded row [t]: the schema validates each attribute, and [None] is not
    a [float]. *)
Definition Transaction_of_row (t : TransactionDB) : result Transaction :=
  match DB.amount t with
  | None => Raise ValidationError
  | Some a =>
      Ok (mkTransaction (UUID_of_value (DB.id t)) (DB.user_id t) a
                        (DB.currency t) (DB.timestamp t) (DB.merchant t)
                        (DB.location t) (DB.category t) (DB.is_fraud t))
  end.

Record Email := mkEmail {
  mail_from : string;
  mail_to : string;
  mail_header : string;
  mail_subject_tx : Transaction
}.

Record World := mkWorld {
  table : list TransactionDB;
  outbox : list Email;
  log : list string
}.

Definition M (A : Type) : Type := World -> result A * World.

Definition ret {A} (a : A) : M A := fun w => (Ok a, w).

Definition raise {A} (e : Exn) : M A := fun w => (Raise e, w).

(** A computation that does not touch the world. *)
Definition lift {A} (r : result A) : M A := fun w => (r, w).

Definition bind {A B} (c : M A) (k : A -> M B) : M B :=
  fun w =>
    match c w with
    | (Ok a, w') => k a w'
    | (Raise e, w') => (Raise e, w')
    end.

(** [try: c  except Exception as e: h e]. *)
Definition try_except {A} (c : M A) (h : Exn -> M A) : M A :=
  fun w =>
    match c w with
    | (Ok a, w') => (Ok a, w')
    | (Raise e, w') => h e w'
    end.

Declare Scope monad_scope.
Delimit Scope monad_scope with monad.
Notation "x <- c ;; k" := (bind c (fun x => k))
  (at level 61, c at next level, right associativity) : monad_scope.
Notation "c ;; k" := (bind c (fun _ => k))
  (at level 61, right associativity) : monad_scope.
Local Open Scope monad_scope.

(** ** SQLAlchemy session over the [transactions] table *)

(** A session created by [SessionLocal()] holds the objects added and not
    yet flushed, in the order of [db.add]. *)
Definition Session : Type := list TransactionDB.

Definition SessionLocal : Session := [].

Definition db_add (db : Session) (obj : TransactionDB) : Session :=
  db ++ [obj].

(** Rows whose [id] column equals the text [s]. *)
Definition id_is (s : string) (t : TransactionDB) : bool :=
  match DB.id t with
  | IdStr s' => String.eqb s' s
  | IdUuid _ => false
  end.

(** The value a REAL column keeps of a bound float: NaN becomes NULL. *)
Definition stored_amount (a : option float) : option float :=
  match a with
  | Some x => if is_nan x then None else Some x
  | None => None
  end.

(** The row an inserted object is read back as. *)
Definition stored_row (obj : TransactionDB) : TransactionDB :=
  DB.mk (DB.id obj) (DB.user_id obj) (stored_amount (DB.amount obj))
        (DB.currency obj) (naive (DB.timestamp obj)) (DB.merchant obj)
        (DB.location obj) (DB.category obj) (DB.is_fraud obj).

(** The INSERTs of a flush, in order.  A parameter for the [String] column
    [id] must be text: a [UUID] object is refused by the driver.  The column
    is the primary key: a text already present is refused by the table. *)
Fixpoint flush (pending : list TransactionDB) (tbl : list TransactionDB)
  : result (list TransactionDB) :=
  match pending with
  | [] => Ok tbl
  | obj :: rest =>
      match DB.id obj with
      | IdUuid _ => Raise InterfaceError
      | IdStr s =>
          if existsb (id_is s) tbl then Raise IntegrityError
          else flush rest (tbl ++ [stored_row obj])
      end
  end.

(** [db.commit()]: all pending rows are written, or none is. *)
Definition db_commit (db : Session) : M unit :=
  fun w =>
    match flush db (table w) with
    | Ok tbl => (Ok tt, mkWorld tbl (outbox w) (log w))
    | Raise e => (Raise e, w)
    end.

(** [db.query(TransactionDB).all()]. *)
Definition query_all : M (list TransactionDB) :=
  fun w => (Ok (table w), w).

(** [db.query(TransactionDB).filter(p).all()]. *)
Definition query_filter (p : TransactionDB -> bool) : M (list TransactionDB) :=
  fun w => (Ok (filter p (table w)), w).

(** [db.query(TransactionDB).filter(p).first()]; [None] when no row matches. *)
Definition query_filter_first (p : TransactionDB -> bool)
  : M (option TransactionDB) :=
  fun w => (Ok (find p (table w)), w).

(** ** Email notification *)

(** What the SMTP exchange with [localhost] does when it is attempted: it
    goes through, or it raises an exception whose text is [reason]. *)
Inductive SmtpOutcome :=
| Delivered
| Failed (reason : string).

(** [str(e)], the text interpolated for [e] in a formatted string.  The
    exceptions of the SMTP exchange carry their text; the other texts are
    not modelled and stand for themselves. *)
Definition str_exn (e : Exn) : string :=
  match e with
  | SMTPError msg => msg
  | ValueError msg => msg
  | HTTPException _ detail => detail
  | IntegrityError => "IntegrityError"
  | InterfaceError => "InterfaceError"
  | ValidationError => "ValidationError"
  | TypeError => "TypeError"
  end.

(** The body of the [with smtplib.SMTP('localhost')] block. *)
Definition smtp_sendmail (smtp : SmtpOutcome) (m : Email) : M unit :=
  fun w =>
    match smtp with
    | Delivered => (Ok tt, mkWorld (table w) (outbox w ++ [m]) (log w))
    | Failed reason => (Raise (SMTPError reason), w)
    end.

Definition logger_error (line : string) : M unit :=
  fun w => (Ok tt, mkWorld (table w) (outbox w) (log w ++ [line])).

Definition send_email_alert (cfg : Config) (smtp : SmtpOutcome)
  (transaction : Transaction) : M unit :=
  if negb (email_alerts_enabled cfg) then ret tt
  else
    try_except
      (smtp_sendmail smtp
         (mkEmail "from@example.com" (alert_email cfg)
                  "Subject: Fraud Alert" transaction))
      (fun e => logger_error ("Failed to send email: " ++ str_exn e)%string).

(** ** Background tasks *)

Inductive Task :=
| SendEmailAlert (tx : Transaction).

Definition BackgroundTasks : Type := list Task.

Definition add_task (background_tasks : BackgroundTasks) (t : Task)
  : BackgroundTasks :=
  background_tasks ++ [t].

(** ** API routes *)

Definition submit_transaction (tx : Transaction)
  (background_tasks : BackgroundTasks) : M (Transaction * BackgroundTasks) :=
  let tx := set_is_fraud tx (detect_fraud tx) in
  let db := SessionLocal in
  let db_tx :=
    DB.mk (IdStr (str_uuid (id tx))) (user_id tx) (Some (amount tx))
          (currency tx) (timestamp tx) (merchant tx) (location tx)
          (category tx) (is_fraud tx) in
  let db := db_add db db_tx in
  db_commit db ;;
  let background_tasks :=
    if is_fraud tx then add_task background_tasks (SendEmailAlert tx)
    else background_tasks in
  ret (tx, background_tasks).

(** The list comprehension [[f(t) for t in l]] for an [f] that may raise:
    the first exception ends it. *)
Fixpoint map_result {A B} (f : A -> result B) (l : list A) : result (list B) :=
  match l with
  | [] => Ok []
  | x :: l' =>
      match f x with
      | Raise e => Raise e
      | Ok y =>
          match map_result f l' with
          | Raise e => Raise e
          | Ok ys => Ok (y :: ys)
          end
      end
  end.

Definition get_transactions : M (list Transaction) :=
  db_tx <- query_all ;;
  lift (map_result Transaction_of_row db_tx).

Definition get_transaction (tx_id : UUID) : M Transaction :=
  tx <- query_filter_first (id_is (str_uuid tx_id)) ;;
  match tx with
  | None => raise (HTTPException 404 "Transaction not found")
  | Some tx => lift (Transaction_of_row tx)
  end.

(** ** Simulated transactions *)

(** The random and clock values one iteration of the simulation loop
    consumes. *)
Record Draw := mkDraw {
  draw_uuid4 : UUID;        (* uuid4(), the default of [id] *)
  draw_randint : Z;         (* random.randint(100, 999) *)
  draw_amount : float;      (* round(random.uniform(10, 20000), 2) *)
  draw_utcnow : datetime;   (* datetime.utcnow() *)
  draw_merchant : nat;      (* position picked by random.choice(merchants) *)
  draw_location : nat;      (* position picked by random.choice(locations) *)
  draw_category : nat       (* position picked by random.choice(categories) *)
}.

(** [random.choice(seq)] picking position [k] (taken modulo the length). *)
Definition choice (items : list string) (k : nat) : string :=
  nth (Nat.modulo k (List.length items)) items "".

(** [range(n)]: empty when [n <= 0]. *)
Definition range (n : Z) : list nat := seq 0 (Z.to_nat n).

Definition merchants : list string :=
  ["Uber"; "Checkers"; "Takealot"; "Netflix"; "Woolworths"].
Definition locations : list string :=
  ["Cape Town"; "Johannesburg"; "London"].
Definition categories : list string :=
  ["Transport"; "Groceries"; "Entertainment"; "Shopping"].

(** The [Transaction(...)] built in one iteration. *)
Definition simulated_transaction (d : Draw) : Transaction :=
  mkTransaction (draw_uuid4 d) (str_int (draw_randint d)) (draw_amount d)
                "ZAR" (draw_utcnow d)
                (choice merchants (draw_merchant d))
                (choice locations (draw_location d))
                (choice categories (draw_category d))
                false.

(** One iteration of the loop body, on the session. *)
Definition simulate_step (rnd : nat -> Draw) (db : Session) (i : nat)
  : Session :=
  let tx := simulated_transaction (rnd i) in
  let tx := set_is_fraud tx (detect_fraud tx) in
  let db_tx := TransactionDB_of_dict tx in
  db_add db db_tx.

Definition simulate_message (n : Z) : string :=
  (str_int n ++ " transactions simulated.")%string.

(** [n = None] is a request without the query parameter. *)
Definition simulate_transactions (n : option Z) (rnd : nat -> Draw)
  : M (list (string * string)) :=
  let n := match n with Some n => n | None => 5 end in
  let db := SessionLocal in
  let db := fold_left (simulate_step rnd) (range n) db in
  db_commit db ;;
  ret [("message", simulate_message n)].

(** ** Dictionaries *)

Section Dict.
Context {V : Type}.

Definition dict : Type := list (string * V).

(** [d.get(k)] *)
Fixpoint dict_get (d : dict) (k : string) : option V :=
  match d with
  | [] => None
  | (k', v) :: d' => if String.eqb k' k then Some v else dict_get d' k
  end.

(** [d.get(k, dflt)] *)
Definition dict_get_default (d : dict) (k : string) (dflt : V) : V :=
  match dict_get d k with
  | Some v => v
  | None => dflt
  end.

(** [d[k] = v] *)
Fixpoint dict_set (d : dict) (k : string) (v : V) : dict :=
  match d with
  | [] => [(k, v)]
  | (k', v') :: d' =>
      if String.eqb k' k then (k', v) :: d'
      else (k', v') :: dict_set d' k v
  end.

(** Iteration over [d] yields its keys. *)
Definition dict_keys (d : dict) : list string := map fst d.
End Dict.
Arguments dict V : clear implicits.

(** ** Smart finance insights *)

(** [acc + x] for a float (or the int 0) [acc] and a loaded amount [x]:
    adding [None] raises. *)
Definition add_amount (acc : float) (x : option float) : result float :=
  match x with
  | Some a => Ok (acc + a)%float
  | None => Raise TypeError
  end.

(** The builtin [sum]: the items are added one by one, from the start
    value, in their order. *)
Fixpoint sum_loop (acc : float) (items : list (option float)) : result float :=
  match items with
  | [] => Ok acc
  | x :: items' =>
      match add_amount acc x with
      | Raise e => Raise e
      | Ok acc' => sum_loop acc' items'
      end
  end.

Definition py_sum (items : list (option float)) : result float :=
  sum_loop 0%float items.

(** The loop of the builtin [max(items, key=key)] after the first item. *)
Fixpoint max_loop (key : string -> float) (max_item : string)
  (max_val : float) (rest : list string) : string :=
  match rest with
  | [] => max_item
  | item :: rest' =>
      let val := key item in
      if gt_float val max_val then max_loop key item val rest'
      else max_loop key max_item max_val rest'
  end.

Definition py_max (items : list string) (key : string -> float)
  : result string :=
  match items with
  | [] => Raise (ValueError "max() arg is an empty sequence")
  | item :: rest => Ok (max_loop key item (key item) rest)
  end.

(** [by_category[t.category] = by_category.get(t.category, 0) + t.amount] *)
Definition add_to_category (by_category : dict float) (t : TransactionDB)
  : result (dict float) :=
  match add_amount (dict_get_default by_category (DB.category t) 0%float)
                   (DB.amount t) with
  | Raise e => Raise e
  | Ok v => Ok (dict_set by_category (DB.category t) v)
  end.

(** [recurring[t.merchant] = recurring.get(t.merchant, 0) + 1] *)
Definition count_merchant (recurring : dict Z) (t : TransactionDB) : dict Z :=
  dict_set recurring (DB.merchant t)
    (dict_get_default recurring (DB.merchant t) 0 + 1).

(** The body of [for t in txs]: both dictionaries are updated, the first
    statement first. *)
Definition insights_step (acc : dict float * dict Z) (t : TransactionDB)
  : result (dict float * dict Z) :=
  let '(by_category, recurring) := acc in
  match add_to_category by_category t with
  | Raise e => Raise e
  | Ok by_category' => Ok (by_category', count_merchant recurring t)
  end.

(** [for t in txs]. *)
Fixpoint insights_loop (txs : list TransactionDB)
  (acc : dict float * dict Z) : result (dict float * dict Z) :=
  match txs with
  | [] => Ok acc
  | t :: txs' =>
      match insights_step acc t with
      | Raise e => Raise e
      | Ok acc' => insights_loop txs' acc'
      end
  end.

Record Insights := mkInsights {
  ins_user_id : string;
  total_spent : float;
  by_category : dict float;
  recurring_merchants : list string;
  advice : string
}.

Definition advice_prefix : string :=
  "Consider budgeting for high-spend categories like ".

Definition user_insights (user_id : string) : M Insights :=
  txs <- query_filter (fun t => String.eqb (DB.user_id t) user_id) ;;
  total_spent <- lift (py_sum (map DB.amount txs)) ;;
  acc <- lift (insights_loop txs ([], [])) ;;
  let '(by_category, recurring) := acc in
  let common_merchants :=
    map fst (filter (fun '(m, count) => 2 <? count) recurring) in
  match py_max (dict_keys by_category)
               (fun k => dict_get_default by_category k 0%float) with
  | Raise e => raise e
  | Ok top =>
      ret (mkInsights user_id total_spent by_category common_merchants
                      (advice_prefix ++ top)%string)
  end.

(** ** Specification-side notions *)


(** The stored transactions of a user. *)
Definition transactions_of (user : string) (w : World) : list TransactionDB :=
  filter (fun t => String.eqb (DB.user_id t) user) (table w).

(** Every amount of [txs] is a number of the table, none is NULL. *)
Definition amounts_not_null (txs : list TransactionDB) : Prop :=
  Forall (fun t => DB.amount t <> None) txs.




(** An id is stored when some row carries its text. *)
Definition stored (u : UUID) (w : World) : Prop :=
  exists t, In t (table w) /\ DB.id t = IdStr (str_uuid u).


(** The row read back after the insert made by [submit_transaction]. *)
Definition submitted_row (tx : Transaction) : TransactionDB :=
  DB.mk (IdStr (str_uuid (id tx))) (user_id tx)
        (if is_nan (amount tx) then None else Some (amount tx))
        (currency tx) (naive (timestamp tx)) (merchant tx) (location tx)
        (category tx) (detect_fraud tx).


(** ** Concrete data used in the examples *)

Definition epoch : datetime := mkDatetime 0 None.


(** The insights scenario: three stored transactions of user 42. *)
Definition row_a : TransactionDB :=
  DB.mk (IdStr "a") "42" (Some 100%float) "ZAR" epoch "Checkers" "Cape Town"
        "Groceries" false.
Definition row_b : TransactionDB :=
  DB.mk (IdStr "b") "42" (Some 200%float) "ZAR" epoch "Checkers" "Cape Town"
        "Groceries" false.
Definition row_c : TransactionDB :=
  DB.mk (IdStr "c") "42" (Some 50%float) "ZAR" epoch "Uber" "Cape Town"
        "Transport" false.

Definition scenario_world : World := mkWorld [row_a; row_b; row_c] [] [].


(** A submission with a new id, a large amount and a claimed flag. *)
Definition big_tx : Transaction :=
  mkTransaction (mkUUID "d") "42" 15000%float "ZAR" epoch "Takealot" "Durban"
                "Shopping" false.

(** A submission reusing the id of [row_a]. *)
Definition replay_tx : Transaction :=
  mkTransaction (mkUUID "a") "7" 10%float "ZAR" epoch "Uber" "Durban"
                "Transport" false.

(** A submission with a negative amount. *)
Definition refund_tx : Transaction :=
  mkTransaction (mkUUID "r") "7" (-5)%float "ZAR" epoch "Uber" "Durban"
                "Transport" false.


(** A submission whose amount is NaN. *)
Definition nan_tx : Transaction :=
  mkTransaction (mkUUID "n") "7" nan "ZAR" epoch "Uber" "Durban"
                "Transport" false.

Definition fixed_draws (i : nat) : Draw :=
  mkDraw (mkUUID "s") 123 15.5%float epoch i i i.



(** ** Serving requests *)

(** The tasks added to [background_tasks] are run, in order, once the
    response of the handler is determined.  [smtp] tells what the SMTP
    exchange does for each alert. *)
Fixpoint run_background (cfg : Config) (smtp : Transaction -> SmtpOutcome)
  (tasks : BackgroundTasks) : M unit :=
  match tasks with
  | [] => ret tt
  | SendEmailAlert tx :: rest =>
      send_email_alert cfg (smtp tx) tx ;;
      run_background cfg smtp rest
  end.

(** The routes registered on [app]. *)
Inductive Request :=
| PostTransactions (tx : Transaction)
| GetTransactions
| GetTransaction (tx_id : UUID)
| PostSimulate (n : option Z) (rnd : nat -> Draw)
| GetInsights (user : string).

Inductive Response :=
| TransactionBody (tx : Transaction)
| TransactionList (txs : list Transaction)
| MessageBody (body : list (string * string))
| InsightsBody (ins : Insights).

(** One request: the handler of the route, then the background tasks it
    scheduled.  A handler that raises schedules nothing. *)
Definition serve (cfg : Config) (smtp : Transaction -> SmtpOutcome)
  (req : Request) : M Response :=
  fun w =>
    match req with
    | PostTransactions tx =>
        match submit_transaction tx [] w with
        | (Ok (r, tasks), w1) =>
            (Ok (TransactionBody r), snd (run_background cfg smtp tasks w1))
        | (Raise e, w1) => (Raise e, w1)
        end
    | GetTransactions =>
        (txs <- get_transactions ;; ret (TransactionList txs)) w
    | GetTransaction tx_id =>
        (tx <- get_transaction tx_id ;; ret (TransactionBody tx)) w
    | PostSimulate n rnd =>
        (body <- simulate_transactions n rnd ;; ret (MessageBody body)) w
    | GetInsights user =>
        (ins <- user_insights user ;; ret (InsightsBody ins)) w
    end.

(** The world after a sequence of requests. *)
Fixpoint serve_all (cfg : Config) (smtp : Transaction -> SmtpOutcome)
  (reqs : list Request) (w : World) : World :=
  match reqs with
  | [] => w
  | req :: rest => serve_all cfg smtp rest (snd (serve cfg smtp req w))
  end.

(** The primary key of the table: every stored id is a text and no text is
    stored twice. *)
Definition primary_key_ok (tbl : list TransactionDB) : Prop :=
  Forall (fun t => exists s, DB.id t = IdStr s) tbl /\ NoDup (map DB.id tbl).

(** ** The order of binary64 numbers *)

(** A number is ranked by its sign class, then its exponent, then its
    mantissa; comparing two numbers is comparing their ranks. *)
Definition SFrank (f : spec_float) : Z * Z * Z :=
  match f with
  | S754_nan => (0, 0, 0)
  | S754_infinity true => (-2, 0, 0)
  | S754_infinity false => (2, 0, 0)
  | S754_zero _ => (0, 0, 0)
  | S754_finite true m e => (-1, - e, - Zpos m)
  | S754_finite false m e => (1, e, Zpos m)
  end.

Definition SFnumber (f : spec_float) : bool :=
  match f with
  | S754_nan => false
  | _ => true
  end.

Definition rank (x : float) : Z * Z * Z := SFrank (Prim2SF x).

Definition rank_lt (a b : Z * Z * Z) : Prop :=
  let '(a1, a2, a3) := a in
  let '(b1, b2, b3) := b in
  a1 < b1 \/ (a1 = b1 /\ (a2 < b2 \/ (a2 = b2 /\ a3 < b3))).

Definition rank_eq (a b : Z * Z * Z) : Prop :=
  let '(a1, a2, a3) := a in
  let '(b1, b2, b3) := b in
  a1 = b1 /\ a2 = b2 /\ a3 = b3.

(** * Properties *)

(** ** Basic facts *)

Lemma str_in_In (s : string) (l : list string) :
  str_in s l = true <-> In s l.
Proof.
  unfold str_in. rewrite existsb_exists. split.
  - intros [x [Hin Heq]]. apply String.eqb_eq in Heq. now subst.
  - intros Hin. exists s. split; [assumption | apply String.eqb_refl].
Qed.

(** ** Comparing floats *)

Lemma SFcompare_rank (f g : spec_float) :
  SFnumber f = true -> SFnumber g = true ->
  exists c,
    SFcompare f g = Some c /\
    match c with
    | Lt => rank_lt (SFrank f) (SFrank g)
    | Eq => rank_eq (SFrank f) (SFrank g)
    | Gt => rank_lt (SFrank g) (SFrank f)
    end.
Proof.
  destruct f as [sf | sf | | sf mf ef], g as [sg | sg | | sg mg eg];
    try discriminate; intros _ _;
    try (destruct sf); try (destruct sg); cbn;
    try (eexists; split; [reflexivity|]; cbn; lia).
  - rewrite Pos.compare_cont_spec. cbn [Pos.switch_Eq].
    destruct (Z.compare_spec ef eg) as [He | He | He];
      [destruct (Pos.compare_spec mf mg) as [Hm | Hm | Hm] | |];
      eexists; (split; [reflexivity|]); cbn; subst; lia.
  - rewrite Pos.compare_cont_spec. cbn [Pos.switch_Eq].
    destruct (Z.compare_spec ef eg) as [He | He | He];
      [destruct (Pos.compare_spec mf mg) as [Hm | Hm | Hm] | |];
      eexists; (split; [reflexivity|]); cbn; subst; lia.
Qed.

Lemma is_nan_number (x : float) :
  is_nan x = negb (SFnumber (Prim2SF x)).
Proof.
  unfold is_nan. rewrite eqb_spec. unfold SFeqb.
  destruct (SFnumber (Prim2SF x)) eqn:E.
  - destruct (SFcompare_rank _ _ E E) as [c [Hc Hr]]. rewrite Hc.
    destruct c; [reflexivity | |];
      exfalso; unfold rank_lt in Hr;
      destruct (SFrank (Prim2SF x)) as [[a b] c]; lia.
  - destruct (Prim2SF x); try discriminate. reflexivity.
Qed.

Lemma ltb_rank (x y : float) :
  (x <? y)%float = true <->
  is_nan x = false /\ is_nan y = false /\ rank_lt (rank x) (rank y).
Proof.
  rewrite ltb_spec, !is_nan_number, !negb_false_iff. unfold SFltb, rank.
  destruct (SFnumber (Prim2SF x)) eqn:Ex.
  - destruct (SFnumber (Prim2SF y)) eqn:Ey.
    + destruct (SFcompare_rank _ _ Ex Ey) as [c [Hc Hr]]. rewrite Hc.
      unfold rank_lt, rank_eq in *.
      destruct (SFrank (Prim2SF x)) as [[a1 a2] a3],
               (SFrank (Prim2SF y)) as [[b1 b2] b3].
      destruct c; split; intros H; try discriminate; try tauto;
        exfalso; lia.
    + destruct (Prim2SF y); try discriminate.
      destruct (Prim2SF x); cbn; split; intros H; try discriminate;
        destruct H as [_ [H _]]; discriminate.
  - destruct (Prim2SF x); try discriminate. cbn. split; intros H;
      [discriminate | destruct H as [H _]; discriminate].
Qed.

Lemma leb_rank (x y : float) :
  (x <=? y)%float = true <->
  is_nan x = false /\ is_nan y = false /\
  (rank_lt (rank x) (rank y) \/ rank_eq (rank x) (rank y)).
Proof.
  rewrite leb_spec, !is_nan_number, !negb_false_iff. unfold SFleb, rank.
  destruct (SFnumber (Prim2SF x)) eqn:Ex.
  - destruct (SFnumber (Prim2SF y)) eqn:Ey.
    + destruct (SFcompare_rank _ _ Ex Ey) as [c [Hc Hr]]. rewrite Hc.
      unfold rank_lt, rank_eq in *.
      destruct (SFrank (Prim2SF x)) as [[a1 a2] a3],
               (SFrank (Prim2SF y)) as [[b1 b2] b3].
      destruct c; split; intros H; try discriminate; try tauto;
        exfalso; lia.
    + destruct (Prim2SF y); try discriminate.
      destruct (Prim2SF x); cbn; split; intros H; try discriminate;
        destruct H as [_ [H _]]; discriminate.
  - destruct (Prim2SF x); try discriminate. cbn. split; intros H;
      [discriminate | destruct H as [H _]; discriminate].
Qed.

Ltac float_order :=
  repeat match goal with
         | H : (_ <? _)%float = true |- _ => apply ltb_rank in H
         | H : (_ <=? _)%float = true |- _ => apply leb_rank in H
         end;
  unfold rank_lt, rank_eq in *;
  repeat match goal with
         | |- context [rank ?x] => destruct (rank x) as [[? ?] ?]
         | H : context [rank ?x] |- _ => destruct (rank x) as [[? ?] ?]
         end.


Lemma ltb_number (x y : float) :
  (x <? y)%float = true -> is_nan x = false /\ is_nan y = false.
Proof. intros H. apply ltb_rank in H. tauto. Qed.

Lemma leb_ltb_trans (x y z : float) :
  (x <=? y)%float = true -> (y <? z)%float = true -> (x <? z)%float = true.
Proof. intros H1 H2. apply ltb_rank. float_order. intuition lia. Qed.

Lemma ltb_leb_trans (x y z : float) :
  (x <? y)%float = true -> (y <=? z)%float = true -> (x <? z)%float = true.
Proof. intros H1 H2. apply ltb_rank. float_order. intuition lia. Qed.

Lemma ltb_leb (x y : float) :
  (x <? y)%float = true -> (x <=? y)%float = true.
Proof. intros H. apply leb_rank. float_order. intuition lia. Qed.

Lemma leb_refl (x : float) : is_nan x = false -> (x <=? x)%float = true.
Proof. intros H. apply leb_rank. float_order. intuition lia. Qed.

Lemma not_ltb_leb (x y : float) :
  is_nan x = false -> is_nan y = false ->
  (x <? y)%float = false -> (y <=? x)%float = true.
Proof.
  intros Hx Hy H. apply leb_rank.
  assert (Hn : ~ (is_nan x = false /\ is_nan y = false /\
                  rank_lt (rank x) (rank y))).
  { intros Hc. apply ltb_rank in Hc. congruence. }
  float_order. intuition lia.
Qed.

Lemma ltb_nan_l (x y : float) : is_nan x = true -> (x <? y)%float = false.
Proof.
  intros H. destruct (x <? y)%float eqn:E; [|reflexivity].
  apply ltb_number in E. destruct E. congruence.
Qed.

(** ** Fraud rule *)

(** C1: the fraud rule flags a transaction exactly when its amount is
    strictly greater than 10000 or its location is not, as an exact string,
    one of Cape Town, Johannesburg and Durban.  The rule is a total function
    of the transaction alone. *)
Theorem detect_fraud_iff (t : Transaction) :
  detect_fraud t = true <->
  (10000 <? amount t)%float = true \/
  ~ In (location t) ["Cape Town"; "Johannesburg"; "Durban"].
Proof.
  unfold detect_fraud, allowed_locations, gt_float.
  destruct (10000 <? amount t)%float eqn:Ea.
  - tauto.
  - destruct (str_in (location t) ["Cape Town"; "Johannesburg"; "Durban"])
      eqn:El; cbn [negb].
    + apply str_in_In in El. split; [discriminate|].
      intros [Hlt | Hnot]; [discriminate | contradiction].
    + split; [|reflexivity]. intros _. right. intros Hin.
      apply str_in_In in Hin. congruence.
Qed.

(** The threshold itself is not flagged, the match on the location is
    case-sensitive, and an amount that is not a number is not above the
    threshold. *)
Example detect_fraud_boundary :
  detect_fraud (mkTransaction (mkUUID "x") "1" 10000%float "ZAR" epoch "Uber"
                              "Durban" "Transport" true) = false /\
  detect_fraud (mkTransaction (mkUUID "x") "1" 10%float "ZAR" epoch "Uber"
                              "durban" "Transport" false) = true /\
  detect_fraud nan_tx = false.
Proof. repeat split; reflexivity. Qed.

(** ** Submission and lookup *)

Lemma id_is_true (s : string) (t : TransactionDB) :
  id_is s t = true <-> DB.id t = IdStr s.
Proof.
  unfold id_is. destruct (DB.id t) as [s' | u].
  - rewrite String.eqb_eq. split; congruence.
  - split; discriminate.
Qed.

Lemma existsb_id_is_stored (u : UUID) (w : World) :
  existsb (id_is (str_uuid u)) (table w) = true <-> stored u w.
Proof.
  unfold stored. rewrite existsb_exists.
  split; intros [t [Hin Hid]]; exists t; split; auto;
    now apply id_is_true.
Qed.

Lemma not_stored_existsb (u : UUID) (w : World) :
  ~ stored u w -> existsb (id_is (str_uuid u)) (table w) = false.
Proof.
  intros H. destruct (existsb _ _) eqn:E; [|reflexivity].
  apply existsb_id_is_stored in E. contradiction.
Qed.

Lemma find_app_last {A} (p : A -> bool) (l : list A) (x : A) :
  existsb p l = false -> p x = true -> find p (l ++ [x]) = Some x.
Proof.
  induction l as [|a l IH]; cbn; intros Hl Hx.
  - now rewrite Hx.
  - apply orb_false_iff in Hl. destruct Hl as [Ha Hl].
    rewrite Ha. now apply IH.
Qed.

(** The handler, case by case on the primary key. *)
Lemma submit_transaction_cases (tx : Transaction) (bg : BackgroundTasks)
  (w : World) :
  let tx' := set_is_fraud tx (detect_fraud tx) in
  submit_transaction tx bg w =
  if existsb (id_is (str_uuid (id tx))) (table w)
  then (Raise IntegrityError, w)
  else (Ok (tx', if detect_fraud tx then bg ++ [SendEmailAlert tx'] else bg),
        mkWorld (table w ++ [submitted_row tx]) (outbox w) (log w)).
Proof.
  cbv zeta. unfold submit_transaction, bind, db_commit, db_add, SessionLocal,
    ret, add_task.
  cbn. destruct (existsb _ (table w)); reflexivity.
Qed.

Lemma submit_transaction_success_inv (tx : Transaction)
  (bg bg' : BackgroundTasks) (w w' : World) (r : Transaction) :
  submit_transaction tx bg w = (Ok (r, bg'), w') ->
  existsb (id_is (str_uuid (id tx))) (table w) = false /\
  r = set_is_fraud tx (detect_fraud tx) /\
  table w' = table w ++ [submitted_row tx].
Proof.
  rewrite submit_transaction_cases.
  destruct (existsb _ (table w)); intros H; inversion H; subst.
  repeat split.
Qed.

Lemma find_submitted_row (tx : Transaction) (tbl : list TransactionDB) :
  existsb (id_is (str_uuid (id tx))) tbl = false ->
  find (id_is (str_uuid (id tx))) (tbl ++ [submitted_row tx]) =
  Some (submitted_row tx).
Proof.
  intros Hnew. apply find_app_last; [exact Hnew|].
  apply id_is_true. reflexivity.
Qed.

Lemma get_transaction_found (u : UUID) (w : World) (t : TransactionDB) :
  find (id_is (str_uuid u)) (table w) = Some t ->
  get_transaction u w = (Transaction_of_row t, w).
Proof.
  intros H. unfold get_transaction, bind, query_filter_first, lift.
  now rewrite H.
Qed.

Lemma get_transaction_missing (u : UUID) (w : World) :
  ~ stored u w ->
  get_transaction u w =
  (Raise (HTTPException 404 "Transaction not found"), w).
Proof.
  intros H. unfold get_transaction, bind, query_filter_first.
  destruct (find _ (table w)) as [t|] eqn:E; [|reflexivity].
  apply find_some in E. destruct E as [Hin Hid].
  exfalso. apply H. exists t. split; [assumption | now apply id_is_true].
Qed.

Lemma detect_fraud_set_is_fraud (tx : Transaction) (b : bool) :
  detect_fraud (set_is_fraud tx b) = detect_fraud tx.
Proof. reflexivity. Qed.

Lemma same_but_is_fraud (tx1 tx2 : Transaction) :
  set_is_fraud tx1 false = set_is_fraud tx2 false ->
  tx2 = set_is_fraud tx1 (is_fraud tx2).
Proof.
  destruct tx1, tx2. unfold set_is_fraud. cbn. intros H.
  inversion H. subst. reflexivity.
Qed.



(** C2: two submissions that differ only in the [is_fraud] field sent by the
    client have the same outcome; when the submission is accepted, the
    returned transaction and the stored row both carry the result of the
    fraud rule, and a submission with a new id is accepted. *)
Theorem submit_ignores_client_is_fraud (tx1 tx2 : Transaction)
  (bg : BackgroundTasks) (w : World) :
  set_is_fraud tx1 false = set_is_fraud tx2 false ->
  submit_transaction tx1 bg w = submit_transaction tx2 bg w /\
  (forall r bg' w',
      submit_transaction tx1 bg w = (Ok (r, bg'), w') ->
      is_fraud r = detect_fraud tx1 /\
      exists row,
        find (id_is (str_uuid (id r))) (table w') = Some row /\
        DB.is_fraud row = detect_fraud tx1) /\
  (~ stored (id tx1) w ->
   exists r bg' w', submit_transaction tx1 bg w = (Ok (r, bg'), w')).
Proof.
  intros Hsame. split; [|split].
  - rewrite (same_but_is_fraud _ _ Hsame).
    rewrite !submit_transaction_cases. reflexivity.
  - intros r bg' w' Hok.
    apply submit_transaction_success_inv in Hok.
    destruct Hok as [Hfresh [Hr Htbl]]. subst r. split; [reflexivity|].
    exists (submitted_row tx1). split; [|reflexivity].
    cbn [id set_is_fraud]. rewrite Htbl. now apply find_submitted_row.
  - intros Hnew. rewrite submit_transaction_cases.
    rewrite (not_stored_existsb _ _ Hnew). eauto.
Qed.

Lemma submit_ignores_client_is_fraud_witness :
  submit_transaction big_tx [] scenario_world =
  submit_transaction (set_is_fraud big_tx true) [] scenario_world.
Proof.
  apply (submit_ignores_client_is_fraud big_tx (set_is_fraud big_tx true)
           [] scenario_world).
  reflexivity.
Defined.




(** The round trip of the witness, evaluated: the flag sent by the client
    is replaced and the fetched transaction is the returned one. *)
Example submit_then_get_roundtrip_example :
  get_transaction (id big_tx)
    (snd (submit_transaction (set_is_fraud big_tx false) [] scenario_world)) =
  (Ok (set_is_fraud big_tx true),
   snd (submit_transaction (set_is_fraud big_tx false) [] scenario_world)).
Proof. reflexivity. Qed.

(** An id that was never stored is not found. *)
Example get_transaction_unknown_id :
  get_transaction (mkUUID "zz") scenario_world =
  (Raise (HTTPException 404 "Transaction not found"), scenario_world).
Proof. reflexivity. Qed.

(** C4: when the id of the submitted transaction is already the id of a
    stored row, the insert made by the Submit handler fails with the
    integrity (conflict) error and the world, hence every stored
    transaction, is unchanged. *)
Theorem submit_duplicate_id_conflict (tx : Transaction)
  (bg : BackgroundTasks) (w : World) :
  stored (id tx) w ->
  submit_transaction tx bg w = (Raise IntegrityError, w).
Proof.
  intros Hdup. rewrite submit_transaction_cases.
  apply existsb_id_is_stored in Hdup. now rewrite Hdup.
Qed.

Lemma submit_duplicate_id_conflict_witness :
  submit_transaction replay_tx [] scenario_world =
  (Raise IntegrityError, scenario_world).
Proof.
  apply (submit_duplicate_id_conflict replay_tx [] scenario_world).
  exists row_a. split; [left; reflexivity | reflexivity].
Defined.




(** ** Notifier *)

(** C8: whatever the SMTP exchange does, the alert returns normally and the
    stored transactions are the same afterwards; with the enabled flag off
    the world is left exactly as it was. *)
Theorem send_email_alert_never_raises (cfg : Config) (smtp : SmtpOutcome)
  (tx : Transaction) (w : World) :
  (exists w',
      send_email_alert cfg smtp tx w = (Ok tt, w') /\ table w' = table w) /\
  (forall addr,
      send_email_alert (mkConfig false addr) smtp tx w = (Ok tt, w)).
Proof.
  split.
  - unfold send_email_alert, try_except, smtp_sendmail, logger_error, ret.
    destruct (email_alerts_enabled cfg); cbn.
    + destruct smtp as [|e]; eexists; split; reflexivity.
    + eexists; split; reflexivity.
  - intros addr. reflexivity.
Qed.

(** A refused connection with alerts enabled: the failure is logged, nothing
    is raised, nothing is sent. *)
Example send_email_alert_swallows_failure :
  send_email_alert (mkConfig true ALERT_EMAIL)
                   (Failed "[Errno 111] Connection refused") big_tx
                   scenario_world =
  (Ok tt,
   mkWorld (table scenario_world) []
           ["Failed to send email: [Errno 111] Connection refused"]).
Proof. reflexivity. Qed.

(** With the configuration of the module the alert does nothing. *)
Example send_email_alert_module_config :
  send_email_alert module_config Delivered big_tx scenario_world =
  (Ok tt, scenario_world).
Proof. reflexivity. Qed.

(** ** Simulation *)

Lemma flush_nil (tbl : list TransactionDB) : flush [] tbl = Ok tbl.
Proof. reflexivity. Qed.

Lemma range_nonpositive (n : Z) : n <= 0 -> range n = [].
Proof.
  intros H. unfold range.
  replace (Z.to_nat n) with 0%nat by lia. reflexivity.
Qed.

Lemma range_length (n : Z) : List.length (range n) = Z.to_nat n.
Proof. unfold range. apply length_seq. Qed.

(** The session after the loop: one pending object per index, each flagged
    by the fraud rule and each holding the [UUID] object as its id. *)
Lemma simulate_loop_pending (rnd : nat -> Draw) (idx : list nat)
  (db : Session) :
  fold_left (simulate_step rnd) idx db =
  db ++ map (fun i =>
               let tx := simulated_transaction (rnd i) in
               TransactionDB_of_dict (set_is_fraud tx (detect_fraud tx)))
            idx.
Proof.
  revert db. induction idx as [|i idx IH]; intros db; cbn [fold_left map].
  - now rewrite app_nil_r.
  - rewrite IH. unfold simulate_step, db_add. cbv zeta.
    rewrite <- app_assoc. reflexivity.
Qed.

Lemma simulate_pending_flags (rnd : nat -> Draw) (n : Z) :
  let db := fold_left (simulate_step rnd) (range n) SessionLocal in
  List.length db = Z.to_nat n /\
  Forall (fun obj =>
            exists tx,
              Transaction_of_row obj = Ok tx /\
              DB.is_fraud obj = detect_fraud tx) db.
Proof.
  cbv zeta. rewrite simulate_loop_pending. unfold SessionLocal. cbn [app].
  split.
  - rewrite length_map. apply range_length.
  - apply Forall_forall. intros obj Hin.
    apply in_map_iff in Hin. destruct Hin as [i [<- _]].
    eexists. split; reflexivity.
Qed.

Lemma flush_uuid_head (obj : TransactionDB) (rest tbl : list TransactionDB)
  (u : UUID) :
  DB.id obj = IdUuid u -> flush (obj :: rest) tbl = Raise InterfaceError.
Proof. intros H. cbn. now rewrite H. Qed.

Lemma simulate_transactions_positive (n : Z) (rnd : nat -> Draw) (w : World) :
  0 < n ->
  simulate_transactions (Some n) rnd w = (Raise InterfaceError, w).
Proof.
  intros Hn. unfold simulate_transactions, bind, db_commit.
  rewrite simulate_loop_pending. unfold SessionLocal, range. cbn [app].
  destruct (Z.to_nat n) as [|k] eqn:E; [lia|].
  cbn [seq map]. cbv zeta.
  rewrite (flush_uuid_head _ _ _
             (id (set_is_fraud (simulated_transaction (rnd 0%nat))
                    (detect_fraud (simulated_transaction (rnd 0%nat))))))
    by reflexivity.
  reflexivity.
Qed.

(** C7 at the count 1, and at the default count: the commit of the
    simulated rows raises, no row is stored and no message is returned. *)
Theorem simulate_one_raises (rnd : nat -> Draw) (w : World) :
  simulate_transactions (Some 1) rnd w = (Raise InterfaceError, w) /\
  simulate_transactions None rnd w = (Raise InterfaceError, w) /\
  simulate_transactions None rnd w = simulate_transactions (Some 5) rnd w.
Proof.
  split; [|split].
  - apply simulate_transactions_positive. lia.
  - change (simulate_transactions (Some 5) rnd w = (Raise InterfaceError, w)).
    apply simulate_transactions_positive. lia.
  - reflexivity.
Qed.

(** The count 0 stores nothing and returns its message. *)
Example simulate_zero :
  simulate_transactions (Some 0) fixed_draws scenario_world =
  (Ok [("message", "0 transactions simulated.")], scenario_world).
Proof. reflexivity. Qed.

(** C10: for a negative count the loop does not run, the commit writes
    nothing, the world is unchanged and the message carries the negative
    count. *)
Theorem simulate_negative_count (n : Z) (rnd : nat -> Draw) (w : World) :
  n < 0 ->
  simulate_transactions (Some n) rnd w =
  (Ok [("message", (str_int n ++ " transactions simulated.")%string)], w).
Proof.
  intros Hn. unfold simulate_transactions, bind, db_commit.
  rewrite range_nonpositive by lia. cbn [fold_left].
  unfold SessionLocal. rewrite flush_nil. unfold ret, simulate_message.
  destruct w. reflexivity.
Qed.

Lemma simulate_negative_count_witness :
  simulate_transactions (Some (-3)) fixed_draws scenario_world =
  (Ok [("message", "-3 transactions simulated.")], scenario_world).
Proof.
  apply (simulate_negative_count (-3) fixed_draws scenario_world).
  lia.
Defined.

(** ** Facts about dictionaries *)

Section DictFacts.
Context {V : Type}.
Implicit Types (d : dict V) (k c : string) (v : V).







End DictFacts.


(** ** Insights *)



Lemma sum_loop_null (l : list (option float)) (acc : float) :
  In None l -> sum_loop acc l = Raise TypeError.
Proof.
  revert acc. induction l as [|x l IH]; intros acc; cbn; [tauto|].
  intros [-> | Hin]; [reflexivity|].
  destruct x as [a|]; cbn; [now apply IH | reflexivity].
Qed.


Lemma amounts_not_null_filter (p : TransactionDB -> bool)
  (txs : list TransactionDB) :
  amounts_not_null txs -> amounts_not_null (filter p txs).
Proof.
  unfold amounts_not_null. rewrite !Forall_forall.
  intros H t Hin. apply filter_In in Hin. now apply H.
Qed.


Lemma insights_loop_null (txs : list TransactionDB)
  (acc : dict float * dict Z) :
  ~ amounts_not_null txs -> insights_loop txs acc = Raise TypeError.
Proof.
  unfold amounts_not_null. revert acc.
  induction txs as [|t l IH]; intros acc Hnot; cbn.
  - exfalso. apply Hnot. constructor.
  - destruct acc as [bc rc]. cbn. unfold add_to_category, add_amount.
    destruct (DB.amount t) as [a|] eqn:Ea; [|reflexivity].
    apply IH. intros Hl. apply Hnot. constructor; [congruence | exact Hl].
Qed.












(** A first item whose key is NaN is never replaced. *)
Lemma max_loop_keeps_nan (key : string -> float) (rest : list string)
  (item : string) (val : float) :
  is_nan val = true -> max_loop key item val rest = item.
Proof.
  intros Hnan. induction rest as [|x rest IH]; cbn; [reflexivity|].
  unfold gt_float. now rewrite (ltb_nan_l _ _ Hnan).
Qed.

(** The kept item is not below a first item whose key is a number. *)
Lemma max_loop_ge_first (key : string -> float) (rest : list string)
  (item : string) :
  is_nan (key item) = false ->
  (key item <=? key (max_loop key item (key item) rest))%float = true.
Proof.
  revert item. induction rest as [|x rest IH]; intros item Hnum;
    cbn [max_loop].
  - now apply leb_refl.
  - cbv zeta. unfold gt_float.
    destruct (key item <? key x)%float eqn:E.
    + apply ltb_leb. apply (ltb_leb_trans _ _ _ E).
      apply IH. now apply ltb_number in E.
    + now apply IH.
Qed.


(** The handler as a function of the user's stored transactions. *)
Lemma user_insights_run (user : string) (w : World) :
  user_insights user w =
  match py_sum (map DB.amount (transactions_of user w)) with
  | Raise e => (Raise e, w)
  | Ok total =>
      match insights_loop (transactions_of user w) ([], []) with
      | Raise e => (Raise e, w)
      | Ok (bc, rc) =>
          match py_max (dict_keys bc)
                       (fun k => dict_get_default bc k 0%float) with
          | Raise e => (Raise e, w)
          | Ok top =>
              (Ok (mkInsights user total bc
                     (map fst (filter (fun '(m, count) => 2 <? count) rc))
                     (advice_prefix ++ top)%string), w)
          end
      end
  end.
Proof.
  unfold user_insights, bind, query_filter, transactions_of, lift.
  destruct (py_sum _) as [total|e]; [|reflexivity].
  destruct (insights_loop _ _) as [[bc rc]|e]; [|reflexivity].
  destruct (py_max _ _); reflexivity.
Qed.


(** C6: for a user without stored transactions the handler raises (the
    selection of the top category is over an empty dictionary) and returns
    no summary; the world is unchanged. *)
Theorem user_insights_empty_raises (user : string) (w : World) :
  transactions_of user w = [] ->
  user_insights user w =
  (Raise (ValueError "max() arg is an empty sequence"), w).
Proof.
  intros Hnone. rewrite user_insights_run.
  rewrite Hnone. reflexivity.
Qed.

Lemma user_insights_empty_raises_witness :
  user_insights "43" scenario_world =
  (Raise (ValueError "max() arg is an empty sequence"), scenario_world).
Proof.
  apply (user_insights_empty_raises "43" scenario_world).
  reflexivity.
Defined.




(** The insights scenario of the specification, evaluated. *)
Example user_insights_scenario :
  user_insights "42" scenario_world =
  (Ok (mkInsights "42" 350%float
         [("Groceries", 300%float); ("Transport", 50%float)]
         []
         "Consider budgeting for high-spend categories like Groceries"),
   scenario_world).
Proof. reflexivity. Qed.

(** A third purchase at the same merchant makes it recurring. *)
Example user_insights_recurring :
  user_insights "42"
    (mkWorld [row_a; row_b; row_c;
              DB.mk (IdStr "e") "42" (Some 20%float) "ZAR" epoch "Checkers"
                    "Durban" "Groceries" false] [] []) =
  (Ok (mkInsights "42" 370%float
         [("Groceries", 320%float); ("Transport", 50%float)]
         ["Checkers"]
         "Consider budgeting for high-spend categories like Groceries"),
   mkWorld [row_a; row_b; row_c;
            DB.mk (IdStr "e") "42" (Some 20%float) "ZAR" epoch "Checkers"
                  "Durban" "Groceries" false] [] []).
Proof. reflexivity. Qed.

(** ** Lookup, listing and resubmission *)

Lemma existsb_find {A} (p : A -> bool) (l : list A) :
  existsb p l = true -> exists x, find p l = Some x /\ p x = true.
Proof.
  induction l as [|a l IH]; cbn; [discriminate|].
  destruct (p a) eqn:Ea; cbn.
  - intros _. now exists a.
  - exact IH.
Qed.

Lemma find_app_found {A} (p : A -> bool) (l l' : list A) (x : A) :
  find p l = Some x -> find p (l ++ l') = Some x.
Proof.
  induction l as [|a l IH]; cbn; [discriminate|].
  destruct (p a); [trivial | exact IH].
Qed.

Lemma find_app_miss {A} (p : A -> bool) (l : list A) (x : A) :
  p x = false -> find p (l ++ [x]) = find p l.
Proof.
  intros Hx. induction l as [|a l IH]; cbn.
  - now rewrite Hx.
  - destruct (p a); [reflexivity | exact IH].
Qed.


Lemma map_result_In {A B} (f : A -> result B) (l : list A) (ys : list B)
  (y : B) :
  map_result f l = Ok ys -> In y ys -> exists x, In x l /\ f x = Ok y.
Proof.
  revert ys. induction l as [|a l IH]; cbn; intros ys H Hin.
  - inversion H. subst. destruct Hin.
  - destruct (f a) as [b|e] eqn:Ea; [|discriminate].
    destruct (map_result f l) as [bs|e]; [|discriminate].
    inversion H. subst. destruct Hin as [<- | Hin].
    + exists a. split; [now left | exact Ea].
    + destruct (IH bs eq_refl Hin) as [x [Hx Hfx]].
      exists x. split; [now right | exact Hfx].
Qed.

(** The world after a submission: as before when the id is taken, else one
    more row at the end. *)
Lemma submit_transaction_table (tx : Transaction) (bg : BackgroundTasks)
  (w : World) :
  table (snd (submit_transaction tx bg w)) =
  if existsb (id_is (str_uuid (id tx))) (table w) then table w
  else table w ++ [submitted_row tx].
Proof.
  rewrite submit_transaction_cases.
  destruct (existsb _ (table w)); reflexivity.
Qed.

Lemma Transaction_of_row_id (row : TransactionDB) (t : Transaction)
  (u : UUID) :
  Transaction_of_row row = Ok t -> DB.id row = IdStr (str_uuid u) ->
  id t = u.
Proof.
  unfold Transaction_of_row. destruct (DB.amount row); [|discriminate].
  intros H Hid. inversion H. cbn [id]. rewrite Hid. destruct u. reflexivity.
Qed.

(** X1: fetching an id that is not stored raises the 404 error.  Fetching
    a stored id reads the first row with that id: it returns a transaction
    carrying the id when the amount of the row is a number, and raises the
    validation error when it is NULL.  The world is unchanged in all
    cases. *)
Theorem get_transaction_stored_or_404 (u : UUID) (w : World) :
  (stored u w ->
   exists row,
     find (id_is (str_uuid u)) (table w) = Some row /\
     match DB.amount row with
     | Some _ => exists t, get_transaction u w = (Ok t, w) /\ id t = u
     | None => get_transaction u w = (Raise ValidationError, w)
     end) /\
  (~ stored u w ->
   get_transaction u w =
   (Raise (HTTPException 404 "Transaction not found"), w)).
Proof.
  split.
  - intros Hst. apply existsb_id_is_stored in Hst.
    apply existsb_find in Hst. destruct Hst as [row [Hfind Hid]].
    exists row. split; [exact Hfind|].
    rewrite (get_transaction_found _ _ _ Hfind).
    apply id_is_true in Hid.
    destruct (DB.amount row) as [a|] eqn:Ea.
    + unfold Transaction_of_row. rewrite Ea. eexists. split; [reflexivity|].
      cbn [id]. rewrite Hid. destruct u. reflexivity.
    + unfold Transaction_of_row. now rewrite Ea.
  - apply get_transaction_missing.
Qed.

Lemma get_transaction_stored_or_404_witness :
  exists row,
    find (id_is "b") (table scenario_world) = Some row /\
    match DB.amount row with
    | Some _ =>
        exists t,
          get_transaction (mkUUID "b") scenario_world =
          (Ok t, scenario_world) /\ id t = mkUUID "b"
    | None =>
        get_transaction (mkUUID "b") scenario_world =
        (Raise ValidationError, scenario_world)
    end.
Proof.
  apply (get_transaction_stored_or_404 (mkUUID "b") scenario_world).
  exists row_b. split; [right; left; reflexivity | reflexivity].
Defined.



(** X3: a submission, accepted or not, does not change what fetching any
    other id returns. *)
Theorem submit_keeps_other_lookups (tx : Transaction) (bg : BackgroundTasks)
  (w : World) (u : UUID) :
  str_uuid u <> str_uuid (id tx) ->
  fst (get_transaction u (snd (submit_transaction tx bg w))) =
  fst (get_transaction u w).
Proof.
  intros Hother.
  pose proof (submit_transaction_table tx bg w) as Htbl.
  unfold get_transaction, bind, query_filter_first.
  rewrite Htbl.
  destruct (existsb (id_is (str_uuid (id tx))) (table w)).
  - destruct (find _ (table w)); reflexivity.
  - rewrite find_app_miss.
    + destruct (find _ (table w)); reflexivity.
    + unfold id_is. cbn [DB.id submitted_row]. apply String.eqb_neq.
      intros Heq. apply Hother. now symmetry.
Qed.

Lemma submit_keeps_other_lookups_witness :
  fst (get_transaction (mkUUID "a")
         (snd (submit_transaction big_tx [] scenario_world))) =
  fst (get_transaction (mkUUID "a") scenario_world).
Proof.
  apply (submit_keeps_other_lookups big_tx [] scenario_world (mkUUID "a")).
  discriminate.
Defined.

(** X4: an id is accepted at most once.  After any submission of an id,
    accepted or not, a further submission with that id raises the
    integrity error and leaves the world as it is, whatever its other
    fields. *)
Theorem resubmit_same_id_rejected (tx1 tx2 : Transaction)
  (bg1 bg2 : BackgroundTasks) (w : World) :
  id tx2 = id tx1 ->
  submit_transaction tx2 bg2 (snd (submit_transaction tx1 bg1 w)) =
  (Raise IntegrityError, snd (submit_transaction tx1 bg1 w)).
Proof.
  intros Hid.
  pose proof (submit_transaction_table tx1 bg1 w) as Htbl.
  rewrite (submit_transaction_cases tx2). rewrite Hid, Htbl.
  destruct (existsb (id_is (str_uuid (id tx1))) (table w)) eqn:E.
  - rewrite E. reflexivity.
  - rewrite existsb_app. cbn [existsb]. unfold id_is at 2.
    cbn [DB.id submitted_row].
    rewrite String.eqb_refl, orb_true_r. reflexivity.
Qed.

Lemma resubmit_same_id_rejected_witness :
  submit_transaction (set_is_fraud big_tx true) []
    (snd (submit_transaction big_tx [] scenario_world)) =
  (Raise IntegrityError, snd (submit_transaction big_tx [] scenario_world)).
Proof.
  apply (resubmit_same_id_rejected big_tx (set_is_fraud big_tx true) [] []
           scenario_world).
  reflexivity.
Defined.

(** ** Serving requests: what the table keeps *)

Lemma send_email_alert_table (cfg : Config) (smtp : SmtpOutcome)
  (tx : Transaction) (w : World) :
  fst (send_email_alert cfg smtp tx w) = Ok tt /\
  table (snd (send_email_alert cfg smtp tx w)) = table w.
Proof.
  unfold send_email_alert, try_except, smtp_sendmail, logger_error, ret.
  destruct (email_alerts_enabled cfg); cbn; [|split; reflexivity].
  destruct smtp; split; reflexivity.
Qed.

Lemma run_background_table (cfg : Config) (smtp : Transaction -> SmtpOutcome)
  (tasks : BackgroundTasks) (w : World) :
  table (snd (run_background cfg smtp tasks w)) = table w.
Proof.
  revert w. induction tasks as [|[tx] rest IH]; intros w; cbn.
  - reflexivity.
  - unfold bind.
    destruct (send_email_alert_table cfg (smtp tx) tx w) as [Hok Htbl].
    destruct (send_email_alert cfg (smtp tx) tx w) as [[[]|e] w1];
      cbn in Hok, Htbl; [|discriminate].
    rewrite IH. exact Htbl.
Qed.

Lemma simulate_transactions_nonpositive (n : Z) (rnd : nat -> Draw)
  (w : World) :
  n <= 0 ->
  simulate_transactions (Some n) rnd w =
  (Ok [("message", simulate_message n)], w).
Proof.
  intros Hn. unfold simulate_transactions, bind, db_commit.
  rewrite range_nonpositive by exact Hn. cbn [fold_left].
  unfold SessionLocal. rewrite flush_nil. unfold ret.
  destruct w. reflexivity.
Qed.

Lemma simulate_transactions_world (n : option Z) (rnd : nat -> Draw)
  (w : World) :
  snd (simulate_transactions n rnd w) = w.
Proof.
  assert (H : forall k, snd (simulate_transactions (Some k) rnd w) = w).
  { intros k. destruct (Z_le_gt_dec k 0) as [Hle | Hgt].
    - now rewrite simulate_transactions_nonpositive.
    - rewrite simulate_transactions_positive by lia. reflexivity. }
  destruct n as [k|]; [apply H | apply (H 5)].
Qed.

Lemma user_insights_world (user : string) (w : World) :
  snd (user_insights user w) = w.
Proof.
  rewrite user_insights_run.
  destruct (py_sum _) as [total|e]; [|reflexivity].
  destruct (insights_loop _ _) as [[bc rc]|e]; [|reflexivity].
  destruct (py_max _ _); reflexivity.
Qed.

Lemma get_transaction_world (u : UUID) (w : World) :
  snd (get_transaction u w) = w.
Proof.
  unfold get_transaction, bind, query_filter_first, lift.
  destruct (find _ (table w)) as [t|]; [|reflexivity].
  destruct (Transaction_of_row t); reflexivity.
Qed.

(** The table after one request: unchanged, or one more row whose id is a
    text that was not stored. *)
Lemma serve_table (cfg : Config) (smtp : Transaction -> SmtpOutcome)
  (req : Request) (w : World) :
  table (snd (serve cfg smtp req w)) = table w \/
  exists row s,
    table (snd (serve cfg smtp req w)) = table w ++ [row] /\
    DB.id row = IdStr s /\
    existsb (id_is s) (table w) = false.
Proof.
  destruct req as [tx | | u | n rnd | user]; unfold serve.
  - rewrite submit_transaction_cases.
    destruct (existsb (id_is (str_uuid (id tx))) (table w)) eqn:E.
    + left. reflexivity.
    + right. exists (submitted_row tx), (str_uuid (id tx)).
      cbn [snd]. rewrite run_background_table.
      cbn [table]. split; [reflexivity|]. split; [reflexivity | exact E].
  - left. unfold get_transactions, bind, query_all, lift.
    destruct (map_result _ _); reflexivity.
  - left. unfold bind.
    pose proof (get_transaction_world u w) as H.
    destruct (get_transaction u w) as [[t|e] w1]; cbn in H |- *; now subst.
  - left. unfold bind.
    pose proof (simulate_transactions_world n rnd w) as H.
    destruct (simulate_transactions n rnd w) as [[b|e] w1];
      cbn in H |- *; now subst.
  - left. unfold bind.
    pose proof (user_insights_world user w) as H.
    destruct (user_insights user w) as [[i|e] w1]; cbn in H |- *; now subst.
Qed.

Lemma serve_all_table_prefix (cfg : Config)
  (smtp : Transaction -> SmtpOutcome) (reqs : list Request) (w : World) :
  exists added, table (serve_all cfg smtp reqs w) = table w ++ added.
Proof.
  revert w. induction reqs as [|req rest IH]; intros w; cbn [serve_all].
  - exists []. now rewrite app_nil_r.
  - destruct (IH (snd (serve cfg smtp req w))) as [added Hadd].
    destruct (serve_table cfg smtp req w) as [Hsame | [row [s [Hrow _]]]].
    + exists added. now rewrite Hadd, Hsame.
    + exists (row :: added). rewrite Hadd, Hrow, <- app_assoc. reflexivity.
Qed.

Lemma existsb_id_is_false_notin (s : string) (tbl : list TransactionDB) :
  existsb (id_is s) tbl = false -> ~ In (IdStr s) (map DB.id tbl).
Proof.
  intros Hex Hin. apply in_map_iff in Hin. destruct Hin as [t [Hid Hin]].
  assert (Htrue : existsb (id_is s) tbl = true).
  { apply existsb_exists. exists t. split; [exact Hin|].
    now apply id_is_true. }
  congruence.
Qed.

Lemma primary_key_ok_snoc (tbl : list TransactionDB) (row : TransactionDB)
  (s : string) :
  primary_key_ok tbl -> DB.id row = IdStr s ->
  existsb (id_is s) tbl = false ->
  primary_key_ok (tbl ++ [row]).
Proof.
  intros [Htext Hnd] Hid Hnew. split.
  - apply Forall_app. split; [exact Htext|].
    constructor; [now exists s | constructor].
  - rewrite map_app. cbn [map]. apply NoDup_app.
    + exact Hnd.
    + constructor; [intros [] | constructor].
    + intros v Hin [Hv | []]. subst v. rewrite Hid in Hin.
      exact (existsb_id_is_false_notin _ _ Hnew Hin).
Qed.

(** X5: the primary key is an invariant of the service.  If every stored id
    is a text and no id is stored twice, this is still so after any sequence
    of requests, whatever the configuration and the SMTP outcomes. *)
Theorem serve_all_keeps_primary_key (cfg : Config)
  (smtp : Transaction -> SmtpOutcome) (reqs : list Request) (w : World) :
  primary_key_ok (table w) ->
  primary_key_ok (table (serve_all cfg smtp reqs w)).
Proof.
  revert w. induction reqs as [|req rest IH]; intros w Hok; cbn [serve_all].
  - exact Hok.
  - apply IH.
    destruct (serve_table cfg smtp req w) as [Hsame | [row [s [Hrow [Hid Hnew]]]]].
    + now rewrite Hsame.
    + rewrite Hrow. now apply (primary_key_ok_snoc _ _ s).
Qed.

Lemma serve_all_keeps_primary_key_witness :
  primary_key_ok
    (table (serve_all module_config (fun _ => Delivered)
              [PostTransactions big_tx; PostTransactions replay_tx;
               PostSimulate None fixed_draws; GetInsights "42";
               PostTransactions refund_tx]
              scenario_world)).
Proof.
  apply (serve_all_keeps_primary_key module_config (fun _ => Delivered)
           [PostTransactions big_tx; PostTransactions replay_tx;
            PostSimulate None fixed_draws; GetInsights "42";
            PostTransactions refund_tx]
           scenario_world).
  split.
  - repeat constructor; eexists; reflexivity.
  - repeat constructor; cbn; intuition discriminate.
Defined.

(** X6: stored transactions are permanent.  A transaction that can be
    fetched by an id is fetched, unchanged, by the same id after any
    sequence of requests: no route updates or deletes a row. *)
Theorem stored_transactions_are_permanent (cfg : Config)
  (smtp : Transaction -> SmtpOutcome) (reqs : list Request) (w : World)
  (u : UUID) (t : Transaction) :
  get_transaction u w = (Ok t, w) ->
  get_transaction u (serve_all cfg smtp reqs w) =
  (Ok t, serve_all cfg smtp reqs w).
Proof.
  intros Hget.
  destruct (serve_all_table_prefix cfg smtp reqs w) as [added Hadd].
  unfold get_transaction, bind, query_filter_first, lift in Hget |- *.
  rewrite Hadd.
  destruct (find (id_is (str_uuid u)) (table w)) as [row|] eqn:E.
  - rewrite (find_app_found _ _ added _ E).
    inversion Hget as [Hrow]. reflexivity.
  - discriminate.
Qed.

Lemma stored_transactions_are_permanent_witness :
  get_transaction (mkUUID "a")
    (serve_all module_config (fun _ => Delivered)
       [PostTransactions replay_tx; PostTransactions big_tx]
       scenario_world) =
  (Transaction_of_row row_a,
   serve_all module_config (fun _ => Delivered)
     [PostTransactions replay_tx; PostTransactions big_tx] scenario_world).
Proof.
  apply (stored_transactions_are_permanent module_config
           (fun _ => Delivered)
           [PostTransactions replay_tx; PostTransactions big_tx]
           scenario_world (mkUUID "a")
           (mkTransaction (mkUUID "a") "42" 100%float "ZAR" epoch "Checkers"
                          "Cape Town" "Groceries" false)).
  reflexivity.
Defined.

Lemma NoDup_map_eq {A B} (f : A -> B) (l : list A) (a b : A) :
  NoDup (map f l) -> In a l -> In b l -> f a = f b -> a = b.
Proof.
  induction l as [|x l IH]; cbn; [tauto|].
  intros Hnd Ha Hb Hf. inversion Hnd as [|? ? Hnotin Hnd']. subst.
  destruct Ha as [-> | Ha], Hb as [-> | Hb].
  - reflexivity.
  - exfalso. apply Hnotin. rewrite Hf. now apply in_map.
  - exfalso. apply Hnotin. rewrite <- Hf. now apply in_map.
  - now apply IH.
Qed.

(** X7: while the primary key holds, every transaction of the listing can be
    fetched by its own id, and fetching it returns that very transaction. *)
Theorem listed_transactions_are_fetchable (w : World)
  (txs : list Transaction) (t : Transaction) :
  primary_key_ok (table w) ->
  get_transactions w = (Ok txs, w) ->
  In t txs ->
  get_transaction (id t) w = (Ok t, w).
Proof.
  intros [Htext Hnd] Hlist Hin.
  unfold get_transactions, bind, query_all, lift in Hlist.
  inversion Hlist as [Hmap]. clear Hlist.
  destruct (map_result_In _ _ _ _ Hmap Hin) as [row [Hrow Ht]].
  pose proof (proj1 (Forall_forall _ _) Htext row Hrow) as [s Hs].
  assert (Hidt : id t = mkUUID s).
  { apply (Transaction_of_row_id row t (mkUUID s) Ht). exact Hs. }
  assert (Hex : existsb (id_is (str_uuid (id t))) (table w) = true).
  { apply existsb_exists. exists row. split; [exact Hrow|].
    apply id_is_true. rewrite Hidt. exact Hs. }
  apply existsb_find in Hex. destruct Hex as [row' [Hfind Hid]].
  rewrite (get_transaction_found _ _ _ Hfind).
  apply find_some in Hfind. destruct Hfind as [Hin' _].
  apply id_is_true in Hid.
  assert (Heq : row' = row).
  { apply (NoDup_map_eq DB.id (table w)); try assumption.
    rewrite Hid, Hidt. now rewrite Hs. }
  now rewrite Heq, Ht.
Qed.

Lemma listed_transactions_are_fetchable_witness :
  get_transaction (mkUUID "c") scenario_world =
  (Ok (mkTransaction (mkUUID "c") "42" 50%float "ZAR" epoch "Uber"
                     "Cape Town" "Transport" false), scenario_world).
Proof.
  apply (listed_transactions_are_fetchable scenario_world
           [mkTransaction (mkUUID "a") "42" 100%float "ZAR" epoch "Checkers"
                          "Cape Town" "Groceries" false;
            mkTransaction (mkUUID "b") "42" 200%float "ZAR" epoch "Checkers"
                          "Cape Town" "Groceries" false;
            mkTransaction (mkUUID "c") "42" 50%float "ZAR" epoch "Uber"
                          "Cape Town" "Transport" false]
           (mkTransaction (mkUUID "c") "42" 50%float "ZAR" epoch "Uber"
                          "Cape Town" "Transport" false)).
  - split.
    + repeat constructor; eexists; reflexivity.
    + repeat constructor; cbn; intuition discriminate.
  - reflexivity.
  - right. right. left. reflexivity.
Defined.

(** ** Insights and submissions *)

Lemma transactions_of_after_submit (tx : Transaction) (bg : BackgroundTasks)
  (w : World) (user : string) :
  transactions_of user (snd (submit_transaction tx bg w)) =
  if existsb (id_is (str_uuid (id tx))) (table w)
  then transactions_of user w
  else if String.eqb (user_id tx) user
       then transactions_of user w ++ [submitted_row tx]
       else transactions_of user w.
Proof.
  unfold transactions_of. rewrite submit_transaction_table.
  destruct (existsb _ (table w)); [reflexivity|].
  rewrite filter_app. cbn [filter DB.user_id submitted_row].
  destruct (String.eqb (user_id tx) user); [reflexivity|].
  now rewrite app_nil_r.
Qed.

(** The response of the handler depends on the world only through the
    transactions of the user. *)
Lemma user_insights_same_transactions (user : string) (w1 w2 : World) :
  transactions_of user w1 = transactions_of user w2 ->
  fst (user_insights user w1) = fst (user_insights user w2).
Proof.
  intros Heq. rewrite !user_insights_run. rewrite Heq.
  destruct (py_sum _) as [total|e]; [|reflexivity].
  destruct (insights_loop _ _) as [[bc rc]|e]; [|reflexivity].
  destruct (py_max _ _); reflexivity.
Qed.

(** X8: the insights of a user do not depend on the transactions of the
    others: a submission for another user, accepted or not, leaves the
    response for this user as it was. *)
Theorem insights_ignore_other_users (tx : Transaction)
  (bg : BackgroundTasks) (w : World) (user : string) :
  user_id tx <> user ->
  fst (user_insights user (snd (submit_transaction tx bg w))) =
  fst (user_insights user w).
Proof.
  intros Hother. apply user_insights_same_transactions.
  rewrite transactions_of_after_submit.
  apply String.eqb_neq in Hother. rewrite Hother.
  destruct (existsb _ (table w)); reflexivity.
Qed.

Lemma insights_ignore_other_users_witness :
  fst (user_insights "42"
         (snd (submit_transaction refund_tx [] scenario_world))) =
  fst (user_insights "42" scenario_world).
Proof.
  apply (insights_ignore_other_users refund_tx [] scenario_world "42").
  discriminate.
Defined.





(** The item kept by the loop of [max] is the first of the greatest: every
    item before it has a strictly smaller key, or a key that is NaN. *)
Lemma max_loop_first_number (key : string -> float) (rest : list string)
  (item : string) :
  is_nan (key item) = false ->
  exists pre post,
    item :: rest = pre ++ max_loop key item (key item) rest :: post /\
    forall k, In k pre ->
              (key k <? key (max_loop key item (key item) rest))%float = true
              \/ is_nan (key k) = true.
Proof.
  revert item. induction rest as [|x rest IH]; intros item Hnum;
    cbn [max_loop].
  - exists [], []. split; [reflexivity | intros k []].
  - cbv zeta. unfold gt_float.
    destruct (key item <? key x)%float eqn:E.
    + assert (Hx : is_nan (key x) = false) by (now apply ltb_number in E).
      destruct (IH x Hx) as [pre [post [Hsplit Hpre]]].
      exists (item :: pre), post. split.
      * cbn [app]. now rewrite <- Hsplit.
      * intros k [<- | Hk]; [|now apply Hpre].
        left. apply (ltb_leb_trans _ _ _ E).
        now apply max_loop_ge_first.
    + destruct (IH item Hnum) as [pre [post [Hsplit Hpre]]].
      destruct pre as [|p pre].
      * cbn [app] in Hsplit. injection Hsplit as Htop Hpost.
        exists [], (x :: rest). split.
        -- cbn [app]. congruence.
        -- intros k [].
      * cbn [app] in Hsplit. injection Hsplit as Hp Hrest. subst p.
        assert (Hitem : (key item
                         <? key (max_loop key item (key item) rest))%float
                        = true).
        { destruct (Hpre item (or_introl eq_refl)) as [H | H];
            [exact H | congruence]. }
        exists (item :: x :: pre), post. split.
        -- cbn [app]. congruence.
        -- intros k [<- | [<- | Hk]].
           ++ now left.
           ++ destruct (is_nan (key x)) eqn:Hx; [now right | left].
              apply (leb_ltb_trans _ (key item)); [|exact Hitem].
              now apply not_ltb_leb.
           ++ apply Hpre. now right.
Qed.

Lemma max_loop_first (key : string -> float) (rest : list string)
  (item : string) :
  exists pre post,
    item :: rest = pre ++ max_loop key item (key item) rest :: post /\
    forall k, In k pre ->
              (key k <? key (max_loop key item (key item) rest))%float = true
              \/ is_nan (key k) = true.
Proof.
  destruct (is_nan (key item)) eqn:Hnan.
  - exists [], rest. rewrite (max_loop_keeps_nan _ _ _ _ Hnan).
    split; [reflexivity | intros k []].
  - now apply max_loop_first_number.
Qed.

(** X11: among categories of equal, greatest sum the advice names the one
    that comes first in [by_category]: every category listed before the
    named one has a strictly smaller sum (or a sum that is NaN, which
    compares with nothing). *)
Theorem advice_names_first_top_category (user : string) (w w' : World)
  (ins : Insights) :
  user_insights user w = (Ok ins, w') ->
  exists top pre post,
    advice ins = (advice_prefix ++ top)%string /\
    dict_keys (by_category ins) = pre ++ top :: post /\
    forall c v vtop,
      In c pre ->
      dict_get (by_category ins) c = Some v ->
      dict_get (by_category ins) top = Some vtop ->
      (v <? vtop)%float = true \/ is_nan v = true.
Proof.
  rewrite user_insights_run.
  destruct (py_sum _) as [total|e]; [|discriminate].
  destruct (insights_loop _ _) as [[bc rc]|e]; [|discriminate].
  destruct (dict_keys bc) as [|k0 ks] eqn:Ek; cbn [py_max];
    intros H; inversion H. subst. clear H.
  cbn [advice by_category].
  set (key := fun k : string => dict_get_default bc k 0%float).
  destruct (max_loop_first key ks k0) as [pre [post [Hsplit Hpre]]].
  exists (max_loop key k0 (key k0) ks), pre, post.
  split; [reflexivity|]. split; [now rewrite Ek|].
  intros c v vtop Hin Hc Htop. specialize (Hpre c Hin).
  unfold key at 1 2 5 in Hpre. unfold dict_get_default in Hpre.
  now rewrite Hc, Htop in Hpre.
Qed.

Lemma advice_names_first_top_category_witness :
  exists top pre post,
    "Consider budgeting for high-spend categories like Transport" =
    (advice_prefix ++ top)%string /\
    ["Groceries"; "Transport"; "Shopping"] = pre ++ top :: post /\
    forall c v vtop,
      In c pre ->
      dict_get [("Groceries", 100%float); ("Transport", 200%float);
                ("Shopping", 200%float)] c = Some v ->
      dict_get [("Groceries", 100%float); ("Transport", 200%float);
                ("Shopping", 200%float)] top = Some vtop ->
      (v <? vtop)%float = true \/ is_nan v = true.
Proof.
  apply (advice_names_first_top_category "42"
           (mkWorld [row_a;
                     DB.mk (IdStr "t") "42" (Some 200%float) "ZAR" epoch
                           "Uber" "Durban" "Transport" false;
                     DB.mk (IdStr "s") "42" (Some 200%float) "ZAR" epoch
                           "Takealot" "Durban" "Shopping" false] [] [])
           (mkWorld [row_a;
                     DB.mk (IdStr "t") "42" (Some 200%float) "ZAR" epoch
                           "Uber" "Durban" "Transport" false;
                     DB.mk (IdStr "s") "42" (Some 200%float) "ZAR" epoch
                           "Takealot" "Durban" "Shopping" false] [] [])
           (mkInsights "42" 500%float
              [("Groceries", 100%float); ("Transport", 200%float);
               ("Shopping", 200%float)] []
              "Consider budgeting for high-spend categories like Transport")).
  reflexivity.
Defined.

(** ** Simulation, for every count *)

(** X12: the simulation never stores anything.  With a count of 0 or less
    it returns its message; with a count of 1 or more (5 when the parameter
    is left out) the commit raises and no message is returned.  The world is
    the same afterwards in both cases. *)
Theorem simulate_transactions_outcome (n : option Z) (rnd : nat -> Draw)
  (w : World) :
  simulate_transactions n rnd w =
  let count := match n with Some k => k | None => 5 end in
  if count <=? 0
  then (Ok [("message", (str_int count ++ " transactions simulated.")%string)],
        w)
  else (Raise InterfaceError, w).
Proof.
  assert (H : forall k,
             simulate_transactions (Some k) rnd w =
             if k <=? 0
             then (Ok [("message", simulate_message k)], w)
             else (Raise InterfaceError, w)).
  { intros k. destruct (k <=? 0) eqn:E.
    - apply Z.leb_le in E. now apply simulate_transactions_nonpositive.
    - apply Z.leb_gt in E. now apply simulate_transactions_positive. }
  destruct n as [k|]; [apply H | apply (H 5)].
Qed.

Lemma choice_In (items : list string) (k : nat) :
  items <> [] -> In (choice items k) items.
Proof.
  intros Hne. unfold choice. apply nth_In.
  apply Nat.mod_upper_bound.
  destruct items; [congruence | discriminate].
Qed.

(** X13: a simulated transaction has currency ZAR, its merchant,
    location and category are taken from the candidate lists, its flag as
    built is off, and the fraud rule flags it exactly when its amount is
    above 10000 or its location is London. *)
Theorem simulated_transaction_flagged (d : Draw) :
  currency (simulated_transaction d) = "ZAR" /\
  is_fraud (simulated_transaction d) = false /\
  In (merchant (simulated_transaction d)) merchants /\
  In (location (simulated_transaction d)) locations /\
  In (category (simulated_transaction d)) categories /\
  (detect_fraud (simulated_transaction d) = true <->
   (10000 <? draw_amount d)%float = true \/
   location (simulated_transaction d) = "London").
Proof.
  split; [reflexivity|]. split; [reflexivity|].
  split; [apply choice_In; discriminate|].
  split; [apply choice_In; discriminate|].
  split; [apply choice_In; discriminate|].
  unfold detect_fraud, gt_float.
  change (amount (simulated_transaction d)) with (draw_amount d).
  assert (Hloc : In (location (simulated_transaction d)) locations)
    by (apply choice_In; discriminate).
  destruct (10000 <? draw_amount d)%float eqn:Ea.
  - tauto.
  - destruct Hloc as [H | [H | [H | []]]]; rewrite <- H; cbn;
      split; intros Hx; try discriminate; try reflexivity.
    + destruct Hx as [Hx | Hx]; discriminate.
    + destruct Hx as [Hx | Hx]; discriminate.
    + now right.
Qed.

(** ** Alerts of a submission *)

(** X14: serving a submission sends one alert email, to the configured
    address and about the returned transaction, exactly when the id is new,
    the fraud rule flags the transaction, alerts are enabled and the SMTP
    exchange succeeds.  When the exchange fails, one line is logged, made of
    the fixed text followed by the text of the exception, and nothing is
    sent; in every other case neither the outbox nor the log changes, and a
    rejected submission leaves the world as it was. *)
Theorem post_transaction_alert_email (cfg : Config)
  (smtp : Transaction -> SmtpOutcome) (tx : Transaction) (w : World) :
  let w' := snd (serve cfg smtp (PostTransactions tx) w) in
  let r := set_is_fraud tx (detect_fraud tx) in
  (~ stored (id tx) w ->
   detect_fraud tx && email_alerts_enabled cfg = true ->
   match smtp r with
   | Delivered =>
       outbox w' =
       outbox w ++ [mkEmail "from@example.com" (alert_email cfg)
                            "Subject: Fraud Alert" r] /\
       log w' = log w
   | Failed reason =>
       outbox w' = outbox w /\
       log w' = log w ++ [("Failed to send email: " ++ reason)%string]
   end) /\
  (~ stored (id tx) w ->
   detect_fraud tx && email_alerts_enabled cfg = false ->
   outbox w' = outbox w /\ log w' = log w) /\
  (stored (id tx) w -> w' = w).
Proof.
  cbv zeta. unfold serve. rewrite submit_transaction_cases.
  split; [|split].
  - intros Hnew Hon. rewrite (not_stored_existsb _ _ Hnew).
    apply andb_true_iff in Hon. destruct Hon as [Ef Ee].
    rewrite Ef. cbn.
    unfold send_email_alert, try_except, smtp_sendmail, logger_error,
      ret, bind.
    rewrite Ee. cbn.
    destruct (smtp (set_is_fraud tx true)); cbn; split; reflexivity.
  - intros Hnew Hoff. rewrite (not_stored_existsb _ _ Hnew).
    destruct (detect_fraud tx) eqn:Ef; cbn; [|split; reflexivity].
    cbn in Hoff.
    unfold send_email_alert, try_except, smtp_sendmail, logger_error,
      ret, bind.
    rewrite Hoff. cbn. split; reflexivity.
  - intros Hst. apply existsb_id_is_stored in Hst. now rewrite Hst.
Qed.

Lemma post_transaction_alert_email_witness :
  outbox (snd (serve (mkConfig true ALERT_EMAIL) (fun _ => Delivered)
                 (PostTransactions big_tx) scenario_world)) =
  outbox scenario_world ++
    [mkEmail "from@example.com" "alert@example.com" "Subject: Fraud Alert"
             (set_is_fraud big_tx true)] /\
  log (snd (serve (mkConfig true ALERT_EMAIL) (fun _ => Delivered)
              (PostTransactions big_tx) scenario_world)) =
  log scenario_world.
Proof.
  apply (post_transaction_alert_email (mkConfig true ALERT_EMAIL)
           (fun _ => Delivered) big_tx scenario_world).
  - intros [t [Hin Hid]]. cbn in Hin.
    destruct Hin as [<- | [<- | [<- | []]]]; discriminate.
  - reflexivity.
Defined.

(** A flagged submission with alerts enabled and a failing SMTP server. *)
Example post_transaction_alert_failed :
  log (snd (serve (mkConfig true ALERT_EMAIL)
              (fun _ => Failed "[Errno 111] Connection refused")
              (PostTransactions big_tx) scenario_world)) =
  ["Failed to send email: [Errno 111] Connection refused"] /\
  outbox (snd (serve (mkConfig true ALERT_EMAIL)
                 (fun _ => Failed "[Errno 111] Connection refused")
                 (PostTransactions big_tx) scenario_world)) = [].
Proof. split; reflexivity. Qed.
